(** * Extension hooks of qutebrowser ([qutebrowser/api/hook.py])

    The five decorator classes [init], [config_changed], [before_load],
    [load_started] and [load_finished] record a callback in the
    [ModuleInfo] object of the module that defines the callback.  The
    [ModuleInfo] objects are shared, mutable Python objects: they live in
    a store and are passed around by reference.  An exception leaves
    every mutation made before it in place, so a call yields an outcome
    together with the store it leaves behind. *)

From stdpp Require Import base strings list.

(** ** Python values *)

(** A callable, as far as the hooks look at it: [func.__module__] is the
    only attribute read ([None] when the attribute holds no name);
    [__name__] tells two callables of one module apart. *)
Record Callable := { __name__ : string; __module__ : option string }.

#[global] Instance Callable_eq_dec : EqDecision Callable.
Proof. solve_decision. Defined.

(** The exceptions that can leave a decorator call. *)
Inductive Exception :=
| ValueError (msg : string)
| ImportError (msg : string)
| AttributeError (msg : string).

#[global] Instance Exception_eq_dec : EqDecision Exception.
Proof. solve_decision. Defined.

(** An entry of [config_changed_hooks]: the tuple [(self._filter, func)]. *)
Definition ConfigChangedHook : Type := option string * Callable.

(** Modelled from the spec: [loader.ModuleInfo], the per-module HookSet
    ([qutebrowser/extensions/loader.py] is not among the sources).  The
    fields are the ones [hook.py] reads and writes: at most one init-hook
    and four ordered lists. *)
Record ModuleInfo := {
  init_hook : option Callable;
  config_changed_hooks : list ConfigChangedHook;
  before_load_hooks : list Callable;
  load_started_hooks : list Callable;
  load_finished_hooks : list Callable
}.

(** [ModuleInfo()]: a HookSet with nothing registered. *)
Definition ModuleInfo_new : ModuleInfo :=
  {| init_hook := None; config_changed_hooks := [];
     before_load_hooks := []; load_started_hooks := [];
     load_finished_hooks := [] |}.

(** [info.init_hook = func] *)
Definition set_init_hook (func : Callable) (info : ModuleInfo) : ModuleInfo :=
  {| init_hook := Some func;
     config_changed_hooks := config_changed_hooks info;
     before_load_hooks := before_load_hooks info;
     load_started_hooks := load_started_hooks info;
     load_finished_hooks := load_finished_hooks info |}.

(** [info.config_changed_hooks.append(entry)] *)
Definition append_config_changed (entry : ConfigChangedHook)
    (info : ModuleInfo) : ModuleInfo :=
  {| init_hook := init_hook info;
     config_changed_hooks := config_changed_hooks info ++ [entry];
     before_load_hooks := before_load_hooks info;
     load_started_hooks := load_started_hooks info;
     load_finished_hooks := load_finished_hooks info |}.

(** [info.before_load_hooks.append(func)] *)
Definition append_before_load (func : Callable)
    (info : ModuleInfo) : ModuleInfo :=
  {| init_hook := init_hook info;
     config_changed_hooks := config_changed_hooks info;
     before_load_hooks := before_load_hooks info ++ [func];
     load_started_hooks := load_started_hooks info;
     load_finished_hooks := load_finished_hooks info |}.

(** [info.load_started_hooks.append(func)] *)
Definition append_load_started (func : Callable)
    (info : ModuleInfo) : ModuleInfo :=
  {| init_hook := init_hook info;
     config_changed_hooks := config_changed_hooks info;
     before_load_hooks := before_load_hooks info;
     load_started_hooks := load_started_hooks info ++ [func];
     load_finished_hooks := load_finished_hooks info |}.

(** [info.load_finished_hooks.append(func)] *)
Definition append_load_finished (func : Callable)
    (info : ModuleInfo) : ModuleInfo :=
  {| init_hook := init_hook info;
     config_changed_hooks := config_changed_hooks info;
     before_load_hooks := before_load_hooks info;
     load_started_hooks := load_started_hooks info;
     load_finished_hooks := load_finished_hooks info ++ [func] |}.

(** ** The store *)

(** A reference to a [ModuleInfo] object: its index in the store. *)
Abbreviation loc := nat (only parsing).

(** How a call ends: it returns a value or raises. *)
Inductive Outcome (A : Type) :=
| Returned (a : A)
| Raised (e : Exception).
Arguments Returned {A} a.
Arguments Raised {A} e.

Section Hooks.

(** Module objects, compared by identity. *)
Context {PyModule : Type} `{EqDecision PyModule}.

(** [importlib.import_module], applied to the value of
    [func.__module__]: the module object of that name, or the exception
    the import machinery raises.  The table of loaded modules does not
    change while hooks are declared. *)
Variable import_module : option string → Exception + PyModule.

(** The process-wide state: which [ModuleInfo] object belongs to which
    module, in the order the modules were first seen, and the objects
    themselves. *)
Record World := {
  registry : list (PyModule * loc);
  heap : list ModuleInfo
}.

(** Process start: no module is registered. *)
Definition World_empty : World := {| registry := []; heap := [] |}.

(** A computation on the store.  [None] says that a reference with no
    object behind it was followed, which no Python program can do; see
    [wf] and [call_runs]. *)
Definition Py (A : Type) : Type := World → option (Outcome A * World).

#[export] Instance Py_ret : MRet Py := λ A a w, Some (Returned a, w).

#[export] Instance Py_bind : MBind Py := λ A B k m w,
  match m w with
  | Some (Returned a, w') => k a w'
  | Some (Raised e, w') => Some (Raised e, w')
  | None => None
  end.

Definition raise {A : Type} (e : Exception) : Py A :=
  λ w, Some (Raised e, w).

(** Reading through a reference. *)
Definition load (info : loc) : Py ModuleInfo :=
  λ w, match heap w !! info with
       | Some i => Some (Returned i, w)
       | None => None
       end.

(** Mutating the object behind a reference, in place. *)
Definition update (info : loc) (f : ModuleInfo → ModuleInfo) : Py unit :=
  λ w, match heap w !! info with
       | Some i => Some (Returned tt,
                         {| registry := registry w;
                            heap := <[info := f i]> (heap w) |})
       | None => None
       end.

(** ** The module registry *)

Fixpoint assoc (module : PyModule) (reg : list (PyModule * loc))
    : option loc :=
  match reg with
  | [] => None
  | (m, l) :: reg' => if decide (m = module) then Some l else assoc module reg'
  end.

(** Modelled from the spec: [get(identity)], the non-creating lookup of
    the ModuleRegistry. *)
Definition get (module : PyModule) (w : World) : option loc :=
  assoc module (registry w).

(** Modelled from the spec: [getOrCreate(identity)], that is
    [loader.add_module_info(module)], which is not among the sources: it
    returns the HookSet the module already has, or creates an empty one,
    stores it for the module and returns it. *)
Definition add_module_info (module : PyModule) : Py loc :=
  λ w, match get module w with
       | Some info => Some (Returned info, w)
       | None =>
           let info := length (heap w) in
           Some (Returned info,
                 {| registry := registry w ++ [(module, info)];
                    heap := heap w ++ [ModuleInfo_new] |})
       end.

(** The HookSet of a module, read through the registry. *)
Definition module_info (module : PyModule) (w : World) : option ModuleInfo :=
  l ← get module w; heap w !! l.

(** ** [hook.py] *)

(** [_add_module_info(func)] *)
Definition _add_module_info (func : Callable) : Py loc :=
  match import_module (__module__ func) with
  | inl e => raise e
  | inr module => add_module_info module
  end.

(** [init.__call__(self, func)] *)
Definition init__call__ (func : Callable) : Py Callable :=
  info ← _add_module_info func;
  i ← load info;
  match init_hook i with
  | Some _ => raise (ValueError "init hook is already registered!")
  | None => _ ← update info (set_init_hook func); mret func
  end.

(** An instance of the class [config_changed]. *)
Record config_changed := { _filter : option string }.

(** [config_changed.__init__(self, option_filter=None)]: the argument is
    [None] when the call passes none, and [Some v] when it passes the
    Python value [v] (a [str], or [None]). *)
Definition config_changed__init__ (option_filter : option (option string))
    : config_changed :=
  {| _filter := match option_filter with
                | Some v => v
                | None => None
                end |}.

(** [config_changed.__call__(self, func)] *)
Definition config_changed__call__ (self : config_changed)
    (func : Callable) : Py Callable :=
  info ← _add_module_info func;
  _ ← update info (append_config_changed (_filter self, func));
  mret func.

(** [before_load.__call__(self, func)] *)
Definition before_load__call__ (func : Callable) : Py Callable :=
  info ← _add_module_info func;
  _ ← update info (append_before_load func);
  mret func.

(** [load_started.__call__(self, func)] *)
Definition load_started__call__ (func : Callable) : Py Callable :=
  info ← _add_module_info func;
  _ ← update info (append_load_started func);
  mret func.

(** [load_finished.__call__(self, func)] *)
Definition load_finished__call__ (func : Callable) : Py Callable :=
  info ← _add_module_info func;
  _ ← update info (append_load_finished func);
  mret func.

(** The five decorators, as the objects [hook.init()],
    [hook.config_changed(...)], [hook.before_load()],
    [hook.load_started()] and [hook.load_finished()]. *)
Inductive Decorator :=
| init
| config_changed_ (self : config_changed)
| before_load
| load_started
| load_finished.

(** [decorator(func)]: Python dispatches to the [__call__] of the
    decorator's class. *)
Definition call (d : Decorator) (func : Callable) : Py Callable :=
  match d with
  | init => init__call__ func
  | config_changed_ self => config_changed__call__ self func
  | before_load => before_load__call__ func
  | load_started => load_started__call__ func
  | load_finished => load_finished__call__ func
  end.

(** A module's top level applying decorators one after the other; a
    call that raises leaves the store as it is at that point, and the
    store lives on. *)
Fixpoint call_all (calls : list (Decorator * Callable)) (w : World)
    : option World :=
  match calls with
  | [] => Some w
  | (d, func) :: calls' =>
      match call d func w with
      | Some (_, w') => call_all calls' w'
      | None => None
      end
  end.

(** A module's top level declaring config-changed hooks:
    [@hook.config_changed(option)] on [func], for each [(option, func)]
    in turn. *)
Definition declare_config_changed (hooks : list ConfigChangedHook)
    : list (Decorator * Callable) :=
  map (λ h, (config_changed_ (config_changed__init__ (Some h.1)), h.2)) hooks.

(** The mutation a successful [decorator(func)] makes to the module's
    [ModuleInfo]. *)
Definition effect (d : Decorator) (func : Callable)
    : ModuleInfo → ModuleInfo :=
  match d with
  | init => set_init_hook func
  | config_changed_ self => append_config_changed (_filter self, func)
  | before_load => append_before_load func
  | load_started => append_load_started func
  | load_finished => append_load_finished func
  end.

(** The one check a decorator makes: [init] refuses a module that has an
    init-hook. *)
Definition refuses (d : Decorator) (info : ModuleInfo) : bool :=
  match d, init_hook info with
  | init, Some _ => true
  | _, _ => false
  end.

(** [info'] differs from [info] at most in the field that decorator
    [d] writes. *)
Definition unchanged_outside (d : Decorator) (info info' : ModuleInfo)
    : Prop :=
  (match d with init => True
   | _ => init_hook info' = init_hook info end) ∧
  (match d with config_changed_ _ => True
   | _ => config_changed_hooks info' = config_changed_hooks info end) ∧
  (match d with before_load => True
   | _ => before_load_hooks info' = before_load_hooks info end) ∧
  (match d with load_started => True
   | _ => load_started_hooks info' = load_started_hooks info end) ∧
  (match d with load_finished => True
   | _ => load_finished_hooks info' = load_finished_hooks info end).

(** ** Well-formed stores

    What fresh allocation guarantees: a module is registered once, no
    two modules hold the same object, and every registered reference has
    an object behind it. *)
Definition wf (w : World) : Prop :=
  NoDup (registry w).*1 ∧ NoDup (registry w).*2 ∧
  Forall (λ l, l < length (heap w)) (registry w).*2.

#[export] Instance wf_dec w : Decision (wf w).
Proof. unfold wf. apply _. Defined.

(** The HookSet of a module, an empty one standing for a module that
    has none yet. *)
Definition info_of (module : PyModule) (w : World) : ModuleInfo :=
  default ModuleInfo_new (module_info module w).

End Hooks.

Arguments World PyModule : clear implicits.
Arguments Py PyModule A : clear implicits.

(** Well-formedness of a given store is decided by running [wf_dec]. *)
Ltac wf_by_computation := apply (bool_decide_unpack _); vm_compute; exact I.

(** ** Config-change filters *)

(** [s.startswith(p)] *)
Fixpoint startswith (p s : string) : bool :=
  match p, s with
  | EmptyString, _ => true
  | String a p', String b s' => bool_decide (a = b) && startswith p' s'
  | String _ _, EmptyString => false
  end.

(** Modelled from the spec: the filter-matching predicate of the spec's
    section 4.3 (the host's change filter is not among the sources).  An
    absent filter matches; a filter matches the option it names and the
    options below it, that is those that start with the filter followed
    by a dot. *)
Definition filter_matches (filter : option string) (changed : string) : bool :=
  match filter with
  | None => true
  | Some f => bool_decide (f = changed) || startswith (f +:+ ".") changed
  end.

(** Modelled from the spec: config-change dispatch for one HookSet (the
    host's dispatch loop is not among the sources).  It walks
    [config_changed_hooks] from the first entry to the last and collects
    the entries whose filter matches the changed option. *)
Fixpoint matching_from (hooks : list ConfigChangedHook) (changed : string)
    (fired : list ConfigChangedHook) : list ConfigChangedHook :=
  match hooks with
  | [] => fired
  | (option, hook) :: hooks' =>
      if filter_matches option changed
      then matching_from hooks' changed (fired ++ [(option, hook)])
      else matching_from hooks' changed fired
  end.

(** Modelled from the spec: what dispatch returns for a HookSet and a
    changed option, the walk started with nothing fired. *)
Definition dispatch (info : ModuleInfo) (changed : string)
    : list ConfigChangedHook :=
  matching_from (config_changed_hooks info) changed [].

(** ** Sequences of decorator calls *)

(** The event a decorator registers for: one per class of [hook.py]. *)
Inductive Event :=
| EvInit
| EvConfigChanged
| EvBeforeLoad
| EvLoadStarted
| EvLoadFinished.

#[global] Instance Event_eq_dec : EqDecision Event.
Proof. solve_decision. Defined.

Definition event_of (d : Decorator) : Event :=
  match d with
  | init => EvInit
  | config_changed_ _ => EvConfigChanged
  | before_load => EvBeforeLoad
  | load_started => EvLoadStarted
  | load_finished => EvLoadFinished
  end.

Section Sequences.

Context {PyModule : Type} `{EqDecision PyModule}.
Variable import_module : option string → Exception + PyModule.

(** Whether [importlib.import_module(func.__module__)] is [module]. *)
Definition resolves_to (module : PyModule) (func : Callable) : bool :=
  bool_decide (import_module (__module__ func) = inr module).

(** What the call [c.1(c.2)] does to the [ModuleInfo] of [module]: nothing
    when the callback belongs elsewhere or [init] refuses it, the
    decorator's mutation otherwise. *)
Definition apply_call (module : PyModule) (c : Decorator * Callable)
    (info : ModuleInfo) : ModuleInfo :=
  if resolves_to module c.2
  then if refuses c.1 info then info else effect c.1 c.2 info
  else info.

Definition apply_calls (module : PyModule)
    (calls : list (Decorator * Callable)) (info : ModuleInfo) : ModuleInfo :=
  foldl (λ i c, apply_call module c i) info calls.

(** The callbacks that [calls] hands to the decorator of event [ev] and
    that belong to [module], in call order. *)
Fixpoint declared (ev : Event) (module : PyModule)
    (calls : list (Decorator * Callable)) : list Callable :=
  match calls with
  | [] => []
  | (d, func) :: calls' =>
      if bool_decide (event_of d = ev) && resolves_to module func
      then func :: declared ev module calls'
      else declared ev module calls'
  end.

(** The [(filter, func)] entries that the [config_changed] calls of
    [calls] make for [module], in call order. *)
Fixpoint declared_config_changed (module : PyModule)
    (calls : list (Decorator * Callable)) : list ConfigChangedHook :=
  match calls with
  | [] => []
  | (config_changed_ self, func) :: calls' =>
      if resolves_to module func
      then (_filter self, func) :: declared_config_changed module calls'
      else declared_config_changed module calls'
  | _ :: calls' => declared_config_changed module calls'
  end.

(** The calls of [calls] whose callback belongs to [module]. *)
Definition calls_of (module : PyModule)
    (calls : list (Decorator * Callable)) : list (Decorator * Callable) :=
  filter (λ c, resolves_to module c.2) calls.

End Sequences.

(** ** A small installation, for running the definitions

    Two extension modules are loaded; module objects are told apart by
    their names. *)
Definition demo_import (name : option string) : Exception + string :=
  match name with
  | None => inl (AttributeError "'NoneType' object has no attribute 'startswith'")
  | Some n =>
      if bool_decide (n ∈ ["ext.adblock"; "ext.zoom"]) then inr n
      else inl (ImportError ("No module named '" +:+ n +:+ "'"))
  end.

Definition on_init : Callable :=
  {| __name__ := "on_init"; __module__ := Some "ext.adblock" |}.
Definition on_init_again : Callable :=
  {| __name__ := "on_init_again"; __module__ := Some "ext.adblock" |}.
Definition on_any_change : Callable :=
  {| __name__ := "on_any_change"; __module__ := Some "ext.adblock" |}.
Definition on_js_change : Callable :=
  {| __name__ := "on_js_change"; __module__ := Some "ext.adblock" |}.
Definition zoom_init : Callable :=
  {| __name__ := "zoom_init"; __module__ := Some "ext.zoom" |}.
Definition stray : Callable :=
  {| __name__ := "stray"; __module__ := Some "ext.missing" |}.
Definition anonymous : Callable :=
  {| __name__ := "anonymous"; __module__ := None |}.

(** The store after [ext.adblock] has declared its init-hook. *)
Definition demo_world : World string :=
  {| registry := [("ext.adblock", 0)];
     heap := [set_init_hook on_init ModuleInfo_new] |}.

(** The same, after [ext.zoom] has been given an empty [ModuleInfo]. *)
Definition demo_world_zoom : World string :=
  {| registry := [("ext.adblock", 0); ("ext.zoom", 1)];
     heap := [set_init_hook on_init ModuleInfo_new; ModuleInfo_new] |}.

(** A start-up in which two extensions declare hooks, some of them
    wrongly: a callback of an unknown module, and a second init-hook. *)
Definition demo_calls : list (Decorator * Callable) :=
  [(before_load, on_init);
   (init, zoom_init);
   (before_load, stray);
   (config_changed_ (config_changed__init__ (Some (Some "bindings"))), on_js_change);
   (init, on_init_again);
   (load_started, on_any_change);
   (load_finished, zoom_init);
   (config_changed_ (config_changed__init__ None), on_any_change);
   (before_load, on_init)].

Example demo_run :
  call_all demo_import
    [(init, on_init);
     (config_changed_ (config_changed__init__ None), on_any_change);
     (config_changed_ (config_changed__init__ (Some (Some "content.javascript"))), on_js_change);
     (init, zoom_init); (init, on_init_again); (before_load, stray)]
    World_empty
  = Some {| registry := [("ext.adblock", 0); ("ext.zoom", 1)];
            heap := [ {| init_hook := Some on_init;
                         config_changed_hooks :=
                           [(None, on_any_change);
                            (Some "content.javascript", on_js_change)];
                         before_load_hooks := []; load_started_hooks := [];
                         load_finished_hooks := [] |};
                      set_init_hook zoom_init ModuleInfo_new ] |}.
Proof. vm_compute. reflexivity. Qed.

(** * Properties *)

Section HookProofs.

Context {PyModule : Type} `{EqDecision PyModule}.
Variable import_module : option string → Exception + PyModule.

Implicit Types (w : World PyModule) (m : PyModule) (l : loc).
Implicit Types (func : Callable) (d : Decorator) (info : ModuleInfo).
Implicit Types (reg : list (PyModule * loc)).

(** ** The registry as an association list *)

Lemma assoc_app_Some m reg reg' l :
  assoc m reg = Some l → assoc m (reg ++ reg') = Some l.
Proof.
  induction reg as [|[m0 l0] reg IH]; simpl; [done|].
  destruct (decide (m0 = m)); auto.
Qed.

Lemma assoc_app_None m reg reg' :
  assoc m reg = None → assoc m (reg ++ reg') = assoc m reg'.
Proof.
  induction reg as [|[m0 l0] reg IH]; simpl; [done|].
  destruct (decide (m0 = m)); [done|auto].
Qed.

Lemma assoc_Some_elem m reg l : assoc m reg = Some l → (m, l) ∈ reg.
Proof.
  induction reg as [|[m0 l0] reg IH]; simpl; [done|].
  destruct (decide (m0 = m)) as [->|]; intros Hl.
  - injection Hl as ->. left.
  - right. auto.
Qed.

Lemma assoc_None_fresh m reg : assoc m reg = None → m ∉ reg.*1.
Proof.
  induction reg as [|[m0 l0] reg IH]; simpl.
  - intros _. apply not_elem_of_nil.
  - destruct (decide (m0 = m)); [done|]. intros Hn.
    apply not_elem_of_cons. split; [congruence|auto].
Qed.

(** Two registered modules never hold the same object. *)
Lemma assoc_inj m1 m2 reg l :
  NoDup reg.*2 → assoc m1 reg = Some l → assoc m2 reg = Some l → m1 = m2.
Proof.
  induction reg as [|[m0 l0] reg IH]; simpl; [done|].
  intros Hnd. apply NoDup_cons in Hnd as [Hl0 Hnd].
  destruct (decide (m0 = m1)) as [E1|], (decide (m0 = m2)) as [E2|];
    intros H1 H2; [congruence| | |by apply IH].
  - injection H1 as ->. apply assoc_Some_elem in H2.
    exfalso. apply Hl0. apply list_elem_of_fmap. by exists (m2, l).
  - injection H2 as ->. apply assoc_Some_elem in H1.
    exfalso. apply Hl0. apply list_elem_of_fmap. by exists (m1, l).
Qed.

Lemma wf_get_valid w m l : wf w → get m w = Some l → l < length (heap w).
Proof.
  intros (_ & _ & Hv) Hg. apply assoc_Some_elem in Hg.
  rewrite Forall_forall in Hv. apply Hv.
  apply list_elem_of_fmap. by exists (m, l).
Qed.

Lemma wf_empty : wf (World_empty (PyModule := PyModule)).
Proof. repeat split; simpl; constructor. Qed.

(** ** Get-or-create *)

Lemma add_module_info_found m w l :
  get m w = Some l → add_module_info m w = Some (Returned l, w).
Proof. intros Hg. unfold add_module_info. by rewrite Hg. Qed.

Lemma add_module_info_runs m w :
  ∃ l w1, add_module_info m w = Some (Returned l, w1).
Proof. unfold add_module_info. destruct (get m w); eauto. Qed.

(** What a get-or-create leaves behind. *)
Lemma add_module_info_post m w l w1 :
  wf w → add_module_info m w = Some (Returned l, w1) →
  wf w1 ∧ get m w1 = Some l ∧ heap w1 !! l = Some (info_of m w) ∧
  (∀ m', m' ≠ m → get m' w1 = get m' w) ∧
  (∀ m' l', get m' w = Some l' → get m' w1 = Some l') ∧
  (∀ l', l' ≠ l → l' < length (heap w) → heap w1 !! l' = heap w !! l') ∧
  (∀ l', get m w = Some l' → w1 = w).
Proof.
  intros Hwf. unfold add_module_info, info_of, module_info.
  destruct (get m w) as [l0|] eqn:Hg; intros [= <- <-]; simpl.
  - pose proof (wf_get_valid _ _ _ Hwf Hg) as Hlt.
    apply lookup_lt_is_Some_2 in Hlt as [i Hi]. rewrite Hi. simpl.
    repeat split; try done; apply Hwf.
  - destruct Hwf as (Hk & Hl & Hv). unfold get in *. simpl.
    assert (Hfresh : length (heap w) ∉ (registry w).*2).
    { intros Hin. rewrite Forall_forall in Hv. apply Hv in Hin. lia. }
    split; [|split; [|split; [|split; [|split; [|split]]]]].
    + repeat split; simpl; rewrite fmap_app; simpl.
      * apply NoDup_app. split; [done|]. split; [|apply NoDup_singleton].
        intros x Hx ->%list_elem_of_singleton.
        by apply (assoc_None_fresh _ _ Hg).
      * apply NoDup_app. split; [done|]. split; [|apply NoDup_singleton].
        by intros x Hx ->%list_elem_of_singleton.
      * apply Forall_app. split.
        -- eapply Forall_impl; [done|]. intros x Hx. simpl in Hx.
           rewrite length_app. simpl. lia.
        -- constructor; [|constructor]. rewrite length_app. simpl. lia.
    + rewrite assoc_app_None by done. simpl. by rewrite decide_True.
    + by rewrite lookup_app_r, Nat.sub_diag.
    + intros m' Hne. destruct (assoc m' (registry w)) as [l'|] eqn:Hg'.
      * by apply assoc_app_Some.
      * rewrite assoc_app_None by done. simpl. by rewrite decide_False.
    + intros m' l' Hg'. by apply assoc_app_Some.
    + intros l' _ Hlt. by rewrite lookup_app_l.
    + done.
Qed.

(** ** One decorator call *)

Lemma _add_module_info_resolved func m :
  import_module (__module__ func) = inr m →
  _add_module_info import_module func = add_module_info m.
Proof. intros Hm. unfold _add_module_info. by rewrite Hm. Qed.

(** Every [__call__] has the same shape: resolve the module, fetch its
    [ModuleInfo], check (only [init] does), mutate one field, return
    [func]. *)
Lemma call_unfold d func w :
  call import_module d func w =
  match import_module (__module__ func) with
  | inl e => Some (Raised e, w)
  | inr m =>
      match add_module_info m w with
      | Some (Returned l, w1) =>
          match heap w1 !! l with
          | Some i =>
              if refuses d i
              then Some (Raised (ValueError "init hook is already registered!"), w1)
              else Some (Returned func,
                         {| registry := registry w1;
                            heap := <[l := effect d func i]> (heap w1) |})
          | None => None
          end
      | Some (Raised e, w1) => Some (Raised e, w1)
      | None => None
      end
  end.
Proof.
  destruct d; simpl;
    unfold init__call__, config_changed__call__, before_load__call__,
      load_started__call__, load_finished__call__, _add_module_info;
    unfold mbind, Py_bind, mret, Py_ret, raise, load, update;
    destruct (import_module (__module__ func)) as [e|m]; try done;
    destruct (add_module_info m w) as [[[l|e] w1]|]; try done;
    destruct (heap w1 !! l) as [i|] eqn:Hi; try done.
  unfold refuses. destruct (init_hook i); [done|]. by rewrite Hi.
Qed.

(** A callback whose module does not resolve: the exception of the
    import leaves the call, and the store is as it was. *)
Lemma call_unresolved d func w e :
  import_module (__module__ func) = inl e →
  call import_module d func w = Some (Raised e, w).
Proof. intros He. by rewrite call_unfold, He. Qed.

Lemma get_update m w (h : list ModuleInfo) :
  get m {| registry := registry w; heap := h |} = get m w.
Proof. reflexivity. Qed.

Lemma wf_update w l i :
  wf w → wf {| registry := registry w; heap := <[l := i]> (heap w) |}.
Proof.
  intros (Hk & Hl & Hv). repeat split; simpl; try done.
  by rewrite length_insert.
Qed.

(** A callback whose module resolves, in a well-formed store: what the
    call returns and what it leaves behind, module by module. *)
Lemma call_resolved d func w m :
  wf w → import_module (__module__ func) = inr m →
  ∃ w',
    call import_module d func w =
      Some (if refuses d (info_of m w)
            then Raised (ValueError "init hook is already registered!")
            else Returned func, w') ∧
    wf w' ∧
    module_info m w' =
      Some (if refuses d (info_of m w) then info_of m w
            else effect d func (info_of m w)) ∧
    (∀ m', m' ≠ m →
       get m' w' = get m' w ∧ module_info m' w' = module_info m' w) ∧
    (∀ m' l', get m' w = Some l' → get m' w' = Some l') ∧
    (refuses d (info_of m w) = true → w' = w).
Proof.
  intros Hwf Hm. rewrite call_unfold, Hm.
  destruct (add_module_info_runs m w) as (l & w1 & Hadd). rewrite Hadd.
  destruct (add_module_info_post _ _ _ _ Hwf Hadd)
    as (Hwf1 & Hg1 & Hl1 & Hother & Hmono & Hheap & Hsame).
  rewrite Hl1.
  assert (Hframe : ∀ m', m' ≠ m → module_info m' w1 = module_info m' w).
  { intros m' Hne. unfold module_info. rewrite (Hother _ Hne).
    destruct (get m' w) as [l'|] eqn:Hg'; simpl; [|done].
    apply Hheap; [|by eapply wf_get_valid].
    intros ->. apply Hne. apply (assoc_inj m' m (registry w1) l).
    - apply Hwf1.
    - unfold get in Hother. by rewrite (Hother _ Hne).
    - done. }
  destruct (refuses d (info_of m w)) eqn:Href.
  - exists w1. split; [done|]. split; [done|]. split.
    { unfold module_info. rewrite Hg1. simpl. done. }
    split; [intros m' Hne; split; auto|]. split; [done|].
    intros _. unfold refuses, info_of, module_info in Href.
    destruct d; try done. destruct (get m w) as [l0|] eqn:Hg0.
    + by eapply Hsame.
    + done.
  - eexists. split; [done|]. split; [by apply wf_update|].
    split; [|split; [|split; [|done]]].
    + unfold module_info. rewrite get_update, Hg1. simpl.
      apply list_lookup_insert_eq. by eapply wf_get_valid.
    + intros m' Hne. rewrite get_update. split; [auto|].
      rewrite <- (Hframe _ Hne). unfold module_info. rewrite get_update.
      destruct (get m' w1) as [l'|] eqn:Hg'; simpl; [|done].
      apply list_lookup_insert_ne. intros ->. apply Hne.
      by apply (assoc_inj m' m (registry w1) l'); [apply Hwf1| |].
    + intros m' l' Hg'. rewrite get_update. by apply Hmono.
Qed.

(** In a well-formed store a call always runs to an outcome, and leaves
    a well-formed store in which every registered module still holds
    the object it held. *)
Lemma call_runs d func w :
  wf w →
  ∃ out w', call import_module d func w = Some (out, w') ∧ wf w' ∧
    ∀ m l, get m w = Some l → get m w' = Some l.
Proof.
  intros Hwf. destruct (import_module (__module__ func)) as [e|m] eqn:Hm.
  - exists (Raised e), w. by rewrite (call_unresolved _ _ _ _ Hm).
  - destruct (call_resolved d func w m Hwf Hm)
      as (w' & Hc & Hwf' & _ & _ & Hmono & _).
    eauto 6.
Qed.

Lemma call_all_runs calls w :
  wf w →
  ∃ w', call_all import_module calls w = Some w' ∧ wf w' ∧
    ∀ m l, get m w = Some l → get m w' = Some l.
Proof.
  revert w. induction calls as [|[d func] calls IH]; intros w Hwf; simpl.
  - eauto.
  - destruct (call_runs d func w Hwf) as (out & w1 & -> & Hwf1 & Hmono1).
    destruct (IH w1 Hwf1) as (w' & -> & Hwf' & Hmono').
    exists w'. eauto.
Qed.

(** Every store the decorators can build from the empty one is
    well-formed. *)
Lemma wf_reachable calls w :
  call_all import_module calls World_empty = Some w → wf w.
Proof.
  intros Hrun. destruct (call_all_runs calls _ wf_empty) as (w' & Hw' & Hwf & _).
  congruence.
Qed.

(** ** The claims about [hook.py] *)

(** C2. A module that has an init-hook: a second [init] registration
    raises ([ValueError "init hook is already registered!"], the error
    the spec calls DuplicateRegistrationError), the store is left exactly
    as it was, and so the module's init-hook is still the first
    callback. *)
Theorem init_duplicate_rejected func w m info first :
  import_module (__module__ func) = inr m →
  module_info m w = Some info →
  init_hook info = Some first →
  ∃ w',
    init__call__ import_module func w =
      Some (Raised (ValueError "init hook is already registered!"), w') ∧
    w' = w ∧
    init_hook <$> module_info m w' = Some (Some first).
Proof.
  intros Hm Hinfo Hfirst. exists w.
  split; [|split; [done|by rewrite Hinfo; simpl; rewrite Hfirst]].
  unfold module_info in Hinfo.
  destruct (get m w) as [l|] eqn:Hg; simpl in Hinfo; [|done].
  unfold init__call__. rewrite (_add_module_info_resolved _ _ Hm).
  unfold mbind, Py_bind. rewrite (add_module_info_found _ _ _ Hg).
  unfold load. rewrite Hinfo. by rewrite Hfirst.
Qed.

(** The same, from the first registration on: the first [init] of a
    module succeeds, the second raises, and the hook stays the first. *)
Lemma init_then_init f1 f2 w m :
  wf w → import_module (__module__ f1) = inr m →
  import_module (__module__ f2) = inr m →
  init_hook (info_of m w) = None →
  ∃ w1,
    init__call__ import_module f1 w = Some (Returned f1, w1) ∧
    init__call__ import_module f2 w1 =
      Some (Raised (ValueError "init hook is already registered!"), w1) ∧
    init_hook (info_of m w1) = Some f1.
Proof.
  intros Hwf H1 H2 Hnone.
  destruct (call_resolved init f1 w m Hwf H1) as (w1 & Hc1 & Hwf1 & Hi1 & _).
  unfold refuses in Hc1, Hi1. rewrite Hnone in Hc1, Hi1. simpl in Hc1, Hi1.
  destruct (call_resolved init f2 w1 m Hwf1 H2) as (w2 & Hc2 & _ & _ & _ & _ & Hsame).
  unfold info_of in Hc2, Hsame. rewrite Hi1 in Hc2, Hsame.
  simpl in Hc2, Hsame. rewrite (Hsame eq_refl) in Hc2.
  exists w1. unfold info_of. rewrite Hi1. done.
Qed.

(** C6. A decorator call that returns, returns the callback it was
    given. *)
Theorem call_returns_callback d func w r w' :
  call import_module d func w = Some (Returned r, w') → r = func.
Proof.
  rewrite call_unfold.
  destruct (import_module (__module__ func)) as [e|m]; [done|].
  destruct (add_module_info m w) as [[[l|e] w1]|]; [|done..].
  destruct (heap w1 !! l) as [i|]; [|done].
  destruct (refuses d i); [done|]. by intros [= <- _].
Qed.

(** When it returns: always, except for a callback whose module does
    not resolve and for [init] on a module that has an init-hook. *)
Lemma call_succeeds d func w m :
  wf w → import_module (__module__ func) = inr m →
  refuses d (info_of m w) = false →
  ∃ w', call import_module d func w = Some (Returned func, w').
Proof.
  intros Hwf Hm Href.
  destruct (call_resolved d func w m Hwf Hm) as (w' & Hc & _).
  rewrite Href in Hc. eauto.
Qed.

(** C7. A callback whose module cannot be resolved: every decorator
    call raises at once, with the exception of the import (what the spec
    calls UnresolvableModuleError), and registers nothing: the store is
    left exactly as it was. *)
Theorem unresolvable_module_fails_fast d func w e :
  import_module (__module__ func) = inl e →
  call import_module d func w = Some (Raised e, w).
Proof. intros He. by rewrite call_unfold, He. Qed.

(** C3. Get-or-create returns the same object every time: a second
    call for the same module returns the reference the first returned
    and creates nothing; a mutation made through the first reference is
    read through the second; and whatever decorators run afterwards, the
    module keeps that one object. *)
Theorem add_module_info_same_instance m w l w1 :
  wf w → add_module_info m w = Some (Returned l, w1) →
  add_module_info m w1 = Some (Returned l, w1) ∧
  (∀ f : ModuleInfo → ModuleInfo, ∃ i w2,
      heap w1 !! l = Some i ∧
      update l f w1 = Some (Returned tt, w2) ∧
      (l' ← add_module_info m; load l') w2 = Some (Returned (f i), w2)) ∧
  (∀ calls, ∃ w',
      call_all import_module calls w1 = Some w' ∧
      add_module_info m w' = Some (Returned l, w')).
Proof.
  intros Hwf Hadd.
  destruct (add_module_info_post _ _ _ _ Hwf Hadd) as (Hwf1 & Hg1 & Hl1 & _).
  split; [by apply add_module_info_found|]. split.
  - intros f. eexists _, _. split; [done|].
    unfold update. rewrite Hl1. split; [done|].
    unfold mbind, Py_bind.
    rewrite (add_module_info_found m _ l) by (by rewrite get_update).
    unfold load. simpl. rewrite list_lookup_insert_eq; [done|].
    by eapply wf_get_valid.
  - intros calls.
    destruct (call_all_runs calls w1 Hwf1) as (w' & Hrun & _ & Hmono).
    exists w'. split; [done|]. apply add_module_info_found. auto.
Qed.

(** C8. The [ModuleInfo] a callback is registered in is a function of
    the module its [__module__] resolves to: callbacks of one module get
    the same object, callbacks of two modules get two objects. *)
Theorem module_identity_stable f1 f2 m1 m2 w l1 w1 l2 w2 :
  wf w →
  import_module (__module__ f1) = inr m1 →
  import_module (__module__ f2) = inr m2 →
  _add_module_info import_module f1 w = Some (Returned l1, w1) →
  _add_module_info import_module f2 w1 = Some (Returned l2, w2) →
  (__module__ f1 = __module__ f2 → l1 = l2) ∧
  (m1 = m2 ↔ l1 = l2) ∧
  get m1 w2 = Some l1 ∧ get m2 w2 = Some l2.
Proof.
  intros Hwf H1 H2.
  rewrite (_add_module_info_resolved _ _ H1), (_add_module_info_resolved _ _ H2).
  intros Ha1 Ha2.
  destruct (add_module_info_post _ _ _ _ Hwf Ha1) as (Hwf1 & Hg1 & _).
  destruct (add_module_info_post _ _ _ _ Hwf1 Ha2)
    as (Hwf2 & Hg2 & _ & _ & Hmono & _).
  pose proof (Hmono _ _ Hg1) as Hg12.
  assert (Hiff : m1 = m2 ↔ l1 = l2).
  { split.
    - intros ->. congruence.
    - intros ->. apply (assoc_inj m1 m2 (registry w2) l2); [apply Hwf2|done..]. }
  split; [|done]. intros Heq. apply Hiff. rewrite Heq in H1. congruence.
Qed.

(** A config-changed registration in a resolvable module never fails
    and puts its entry at the end of the module's list. *)
Lemma config_changed_appends self func w m :
  wf w → import_module (__module__ func) = inr m →
  ∃ w',
    config_changed__call__ import_module self func w = Some (Returned func, w') ∧
    wf w' ∧
    config_changed_hooks (info_of m w') =
      config_changed_hooks (info_of m w) ++ [(_filter self, func)].
Proof.
  intros Hwf Hm.
  destruct (call_resolved (config_changed_ self) func w m Hwf Hm)
    as (w' & Hc & Hwf' & Hi & _).
  exists w'. split; [done|]. split; [done|].
  unfold info_of at 1. by rewrite Hi.
Qed.

Lemma declare_config_changed_appends m hooks w :
  wf w → Forall (λ h, import_module (__module__ h.2) = inr m) hooks →
  ∃ w',
    call_all import_module (declare_config_changed hooks) w = Some w' ∧
    config_changed_hooks (info_of m w') =
      config_changed_hooks (info_of m w) ++ hooks.
Proof.
  revert w. induction hooks as [|[o func] hooks IH]; intros w Hwf Hm; simpl.
  - exists w. by rewrite app_nil_r.
  - apply Forall_cons in Hm as [Hm1 Hm].
    destruct (config_changed_appends {| _filter := o |} func w m Hwf Hm1)
      as (w1 & Hc & Hwf1 & Hl1).
    unfold config_changed__init__ at 1. simpl. rewrite Hc.
    destruct (IH w1 Hwf1 Hm) as (w' & Hrun & Hl').
    exists w'. split; [done|]. rewrite Hl', Hl1. simpl.
    by rewrite <- app_assoc.
Qed.

(** C4. Config-changed registrations of one module, any filters,
    duplicates allowed: each one is appended, so a module that had no
    config-changed hook ends with exactly the registered entries, in the
    order of registration. *)
Theorem config_changed_hooks_in_order m hooks w :
  wf w → Forall (λ h, import_module (__module__ h.2) = inr m) hooks →
  config_changed_hooks (info_of m w) = [] →
  ∃ w',
    call_all import_module (declare_config_changed hooks) w = Some w' ∧
    config_changed_hooks (info_of m w') = hooks.
Proof.
  intros Hwf Hm Hnil.
  destruct (declare_config_changed_appends m hooks w Hwf Hm) as (w' & Hrun & Hl).
  exists w'. by rewrite Hl, Hnil.
Qed.

Lemma unchanged_outside_refl d info : unchanged_outside d info info.
Proof. by destruct d. Qed.

Lemma unchanged_outside_effect d func info :
  unchanged_outside d info (effect d func info).
Proof. by destruct d. Qed.

(** C9. A decorator call, returning or raising, touches nothing but
    the [ModuleInfo] of the callback's own module, and there nothing but
    the field of its own event category (a module that had no
    [ModuleInfo] counts as having an empty one); a call that raises
    touches nothing at all. *)
Theorem call_frame d func w out w' :
  wf w → call import_module d func w = Some (out, w') →
  (∀ m', import_module (__module__ func) ≠ inr m' →
     get m' w' = get m' w ∧ module_info m' w' = module_info m' w) ∧
  (∀ m, import_module (__module__ func) = inr m →
     unchanged_outside d (info_of m w) (info_of m w')) ∧
  (∀ e, out = Raised e → w' = w).
Proof.
  intros Hwf Hcall.
  destruct (import_module (__module__ func)) as [e|m] eqn:Hm.
  - rewrite (call_unresolved _ _ _ _ Hm) in Hcall. injection Hcall as <- <-.
    repeat split; done.
  - destruct (call_resolved d func w m Hwf Hm)
      as (w'' & Hc & _ & Hi & Hother & _ & Hsame).
    rewrite Hcall in Hc. injection Hc as -> <-.
    split; [|split].
    + intros m' Hne. apply Hother. congruence.
    + intros m0 [= <-]. unfold info_of at 2. rewrite Hi. simpl.
      destruct (refuses d (info_of m w));
        [apply unchanged_outside_refl|apply unchanged_outside_effect].
    + intros e He. destruct (refuses d (info_of m w)); [auto|done].
Qed.

(** C10. The filter is stored as it was passed: registering with a
    string, whatever string, appends an entry carrying exactly that
    string, and registering with no argument appends an entry with no
    filter. *)
Theorem config_changed_filter_verbatim func w m :
  wf w → import_module (__module__ func) = inr m →
  (∀ s : string, ∃ w',
      config_changed__call__ import_module
        (config_changed__init__ (Some (Some s))) func w =
        Some (Returned func, w') ∧
      config_changed_hooks (info_of m w') =
        config_changed_hooks (info_of m w) ++ [(Some s, func)]) ∧
  (∃ w',
      config_changed__call__ import_module
        (config_changed__init__ None) func w =
        Some (Returned func, w') ∧
      config_changed_hooks (info_of m w') =
        config_changed_hooks (info_of m w) ++ [(None, func)]).
Proof.
  intros Hwf Hm. split; [intros s|].
  - destruct (config_changed_appends
                (config_changed__init__ (Some (Some s))) func w m Hwf Hm)
      as (w' & Hc & _ & Hl).
    eauto.
  - destruct (config_changed_appends
                (config_changed__init__ None) func w m Hwf Hm)
      as (w' & Hc & _ & Hl).
    eauto.
Qed.

End HookProofs.

(** ** Config-change filters *)

Lemma append_nil (s : string) : "" +:+ s = s.
Proof. reflexivity. Qed.

Lemma append_cons a (s1 s2 : string) :
  String a s1 +:+ s2 = String a (s1 +:+ s2).
Proof. reflexivity. Qed.

Lemma append_assoc (s1 s2 s3 : string) :
  (s1 +:+ s2) +:+ s3 = s1 +:+ s2 +:+ s3.
Proof.
  induction s1 as [|a s1 IH]; [done|].
  by rewrite !append_cons, IH.
Qed.

Lemma startswith_spec (p s : string) :
  startswith p s = true ↔ ∃ rest, s = p +:+ rest.
Proof.
  revert s. induction p as [|a p IH]; intros [|b s]; simpl;
    try setoid_rewrite append_nil; try setoid_rewrite append_cons.
  - split; [by exists ""|done].
  - split; [by exists (String b s)|done].
  - split; [done|by intros [rest ?]].
  - rewrite andb_true_iff, IH. split.
    + intros [->%bool_decide_eq_true [rest ->]]. by exists rest.
    + intros [rest [= -> ->]]. split; [by apply bool_decide_eq_true|by exists rest].
Qed.

(** C1. A filter matches a changed option exactly when there is no
    filter, or the filter is the option's name, or the option's name is
    the filter, a dot, and anything after it; so ["bindings"] matches
    ["bindings.commands"] and ["bindings.key_mappings"] and neither
    ["bindingsextra.foo"] nor ["other.bindings"]. *)
Theorem filter_matches_spec :
  (∀ (filter : option string) (changed : string),
     filter_matches filter changed = true ↔
       filter = None ∨ filter = Some changed ∨
       ∃ f rest, filter = Some f ∧ changed = f +:+ "." +:+ rest) ∧
  filter_matches (Some "bindings") "bindings.commands" = true ∧
  filter_matches (Some "bindings") "bindings.key_mappings" = true ∧
  filter_matches (Some "bindings") "bindingsextra.foo" = false ∧
  filter_matches (Some "bindings") "other.bindings" = false.
Proof.
  split; [|by vm_compute].
  intros [f|] changed; simpl; [|by split; auto].
  rewrite orb_true_iff, bool_decide_eq_true, startswith_spec. split.
  - intros [->|[rest ->]]; [by right; left|].
    right; right. exists f, rest. by rewrite append_assoc.
  - intros [?|[[= ->]|(f' & rest & [= <-] & ->)]]; [done|by left|].
    right. exists rest. by rewrite append_assoc.
Qed.

(** The other filters the spec lists: a full option name matches that
    option and not its parent; a prefix that stops inside a segment does
    not match; case and stray dots are not normalised. *)
Example filter_matches_examples :
  filter_matches (Some "content.javascript.enabled") "content.javascript.enabled" = true ∧
  filter_matches (Some "content.javascript.enabled") "content.javascript" = false ∧
  filter_matches (Some "bind") "bindings.commands" = false ∧
  filter_matches (Some "Bindings") "bindings.commands" = false ∧
  filter_matches (Some "bindings.") "bindings.commands" = false ∧
  filter_matches None "colors.foo" = true.
Proof. by vm_compute. Qed.

Lemma matching_from_filter hooks changed fired :
  matching_from hooks changed fired =
  fired ++ filter (λ h, filter_matches h.1 changed) hooks.
Proof.
  revert fired. induction hooks as [|[o hook] hooks IH]; intros fired; simpl.
  - by rewrite app_nil_r.
  - rewrite filter_cons. simpl.
    destruct (filter_matches o changed) eqn:Hm; rewrite IH.
    + case_decide; [by rewrite <- app_assoc|by exfalso].
    + case_decide; [by exfalso|done].
Qed.

(** C5. Dispatch returns the entries of [config_changed_hooks] whose
    filter matches the changed option, each as often as it was
    registered, in registration order: it is the filtered list, hence a
    subsequence of the registered one. *)
Theorem dispatch_matching_subsequence info changed :
  dispatch info changed =
    filter (λ h, filter_matches h.1 changed) (config_changed_hooks info) ∧
  sublist (dispatch info changed) (config_changed_hooks info) ∧
  (∀ h, h ∈ dispatch info changed ↔
        h ∈ config_changed_hooks info ∧ filter_matches h.1 changed = true).
Proof.
  unfold dispatch. rewrite matching_from_filter. simpl.
  split; [done|]. split; [apply sublist_filter|].
  intros h. rewrite list_elem_of_filter, Is_true_true. tauto.
Qed.

(** The spec's scenario: a module registers [config_changed()] and
    [config_changed('content.javascript')]; a change of
    [content.javascript.enabled] fires both, in that order, and a change of
    [colors.foo] fires the first only. *)
Example dispatch_scenario :
  ∃ w,
    call_all demo_import
      [(config_changed_ (config_changed__init__ None), on_any_change);
       (config_changed_ (config_changed__init__ (Some (Some "content.javascript"))),
        on_js_change)]
      World_empty = Some w ∧
    dispatch (info_of "ext.adblock" w) "content.javascript.enabled" =
      [(None, on_any_change); (Some "content.javascript", on_js_change)] ∧
    dispatch (info_of "ext.adblock" w) "colors.foo" = [(None, on_any_change)].
Proof. eexists. split; [by vm_compute|by vm_compute]. Qed.

(** ** The claims, run on the small installation *)

(** A callable whose [__module__] is [None]: the import raises, and so
    does every decorator. *)
Example anonymous_is_refused :
  call demo_import load_started anonymous demo_world =
    Some (Raised (AttributeError "'NoneType' object has no attribute 'startswith'"),
          demo_world).
Proof. reflexivity. Qed.

Lemma demo_world_wf : wf demo_world.
Proof. wf_by_computation. Qed.

Lemma demo_world_reachable :
  call_all demo_import [(init, on_init)] World_empty = Some demo_world.
Proof. reflexivity. Qed.

Lemma init_duplicate_rejected_witness :
  demo_import (__module__ on_init_again) = inr "ext.adblock" ∧
  module_info "ext.adblock" demo_world = Some (set_init_hook on_init ModuleInfo_new) ∧
  ∃ w',
    init__call__ demo_import on_init_again demo_world =
      Some (Raised (ValueError "init hook is already registered!"), w') ∧
    w' = demo_world ∧
    init_hook <$> module_info "ext.adblock" w' = Some (Some on_init).
Proof.
  split; [reflexivity|]. split; [reflexivity|].
  apply (init_duplicate_rejected demo_import on_init_again demo_world
           "ext.adblock" (set_init_hook on_init ModuleInfo_new) on_init);
    reflexivity.
Defined.

Lemma call_returns_callback_witness :
  ∃ r w',
    call demo_import load_finished zoom_init demo_world = Some (Returned r, w') ∧
    r = zoom_init.
Proof.
  exists zoom_init,
    {| registry := registry demo_world_zoom;
       heap := [set_init_hook on_init ModuleInfo_new;
                append_load_finished zoom_init ModuleInfo_new] |}.
  split; [reflexivity|].
  apply (call_returns_callback demo_import load_finished zoom_init demo_world
           zoom_init
           {| registry := registry demo_world_zoom;
              heap := [set_init_hook on_init ModuleInfo_new;
                       append_load_finished zoom_init ModuleInfo_new] |}).
  reflexivity.
Defined.

Lemma unresolvable_module_fails_fast_witness :
  demo_import (__module__ stray) =
    inl (ImportError "No module named 'ext.missing'") ∧
  call demo_import init stray demo_world =
    Some (Raised (ImportError "No module named 'ext.missing'"), demo_world).
Proof.
  split; [reflexivity|].
  apply (unresolvable_module_fails_fast demo_import init stray demo_world).
  reflexivity.
Defined.

Lemma add_module_info_same_instance_witness :
  wf demo_world ∧
  add_module_info "ext.zoom" demo_world = Some (Returned 1, demo_world_zoom) ∧
  add_module_info "ext.zoom" demo_world_zoom = Some (Returned 1, demo_world_zoom).
Proof.
  split; [wf_by_computation|]. split; [reflexivity|].
  apply (add_module_info_same_instance demo_import "ext.zoom" demo_world 1
           demo_world_zoom);
    [wf_by_computation|reflexivity].
Defined.

Lemma module_identity_stable_witness :
  wf demo_world ∧
  _add_module_info demo_import on_init_again demo_world =
    Some (Returned 0, demo_world) ∧
  _add_module_info demo_import zoom_init demo_world =
    Some (Returned 1, demo_world_zoom) ∧
  ((__module__ on_init_again = __module__ zoom_init → 0 = 1) ∧
   ("ext.adblock" = "ext.zoom" ↔ 0 = 1) ∧
   get "ext.adblock" demo_world_zoom = Some 0 ∧
   get "ext.zoom" demo_world_zoom = Some 1).
Proof.
  split; [wf_by_computation|]. split; [reflexivity|]. split; [reflexivity|].
  apply (module_identity_stable demo_import on_init_again zoom_init
           "ext.adblock" "ext.zoom" demo_world 0 demo_world 1 demo_world_zoom);
    [wf_by_computation|reflexivity..].
Defined.

Lemma config_changed_hooks_in_order_witness :
  ∃ w',
    call_all demo_import
      (declare_config_changed
         [(None, on_any_change); (Some "content.javascript", on_js_change);
          (None, on_any_change)])
      demo_world = Some w' ∧
    config_changed_hooks (info_of "ext.adblock" w') =
      [(None, on_any_change); (Some "content.javascript", on_js_change);
       (None, on_any_change)].
Proof.
  apply (config_changed_hooks_in_order demo_import "ext.adblock"
           [(None, on_any_change); (Some "content.javascript", on_js_change);
            (None, on_any_change)]
           demo_world);
    [wf_by_computation|repeat constructor|reflexivity].
Defined.

Lemma call_frame_witness :
  wf demo_world_zoom ∧
  call demo_import before_load zoom_init demo_world_zoom =
    Some (Returned zoom_init,
          {| registry := registry demo_world_zoom;
             heap := [set_init_hook on_init ModuleInfo_new;
                      append_before_load zoom_init ModuleInfo_new] |}) ∧
  module_info "ext.adblock"
    {| registry := registry demo_world_zoom;
       heap := [set_init_hook on_init ModuleInfo_new;
                append_before_load zoom_init ModuleInfo_new] |} =
  module_info "ext.adblock" demo_world_zoom.
Proof.
  split; [wf_by_computation|]. split; [reflexivity|].
  apply (call_frame demo_import before_load zoom_init demo_world_zoom
           (Returned zoom_init)
           {| registry := registry demo_world_zoom;
              heap := [set_init_hook on_init ModuleInfo_new;
                       append_before_load zoom_init ModuleInfo_new] |});
    [wf_by_computation|reflexivity|discriminate].
Defined.

Lemma config_changed_filter_verbatim_witness :
  wf demo_world ∧
  demo_import (__module__ on_js_change) = inr "ext.adblock" ∧
  ∃ w',
    config_changed__call__ demo_import
      (config_changed__init__ (Some (Some ".Content..JS. "))) on_js_change
      demo_world = Some (Returned on_js_change, w') ∧
    config_changed_hooks (info_of "ext.adblock" w') =
      config_changed_hooks (info_of "ext.adblock" demo_world) ++
      [(Some ".Content..JS. ", on_js_change)].
Proof.
  split; [wf_by_computation|]. split; [reflexivity|].
  apply (config_changed_filter_verbatim demo_import on_js_change demo_world
           "ext.adblock");
    [wf_by_computation|reflexivity].
Defined.

(** * Sequences of decorator calls *)

Section SequenceProofs.

Context {PyModule : Type} `{EqDecision PyModule}.
Variable import_module : option string → Exception + PyModule.

Implicit Types (w : World PyModule) (m : PyModule) (l : loc).
Implicit Types (func : Callable) (d : Decorator) (info : ModuleInfo).
Implicit Types (calls : list (Decorator * Callable)).

(** One call, seen from the [ModuleInfo] of every module at once. *)
Lemma call_info_of d func w :
  wf w →
  ∃ out w',
    call import_module d func w = Some (out, w') ∧ wf w' ∧
    ∀ m, info_of m w' = apply_call import_module m (d, func) (info_of m w).
Proof.
  intros Hwf. unfold apply_call, resolves_to. simpl.
  destruct (import_module (__module__ func)) as [e|m0] eqn:Hm.
  - exists (Raised e), w. rewrite (call_unresolved _ _ _ _ _ Hm).
    split; [done|]. split; [done|]. intros m.
    by rewrite bool_decide_eq_false_2.
  - destruct (call_resolved import_module d func w m0 Hwf Hm)
      as (w' & Hc & Hwf' & Hi & Hother & _).
    eexists _, w'. split; [done|]. split; [done|]. intros m.
    destruct (decide (m0 = m)) as [<-|Hne].
    + rewrite bool_decide_eq_true_2 by done. unfold info_of at 1. by rewrite Hi.
    + rewrite bool_decide_eq_false_2 by congruence. unfold info_of.
      by rewrite (proj2 (Hother m (not_eq_sym Hne))).
Qed.

(** Any sequence of calls, seen from the [ModuleInfo] of every module:
    the calls take effect one after the other. *)
Lemma call_all_info_of calls w :
  wf w →
  ∃ w',
    call_all import_module calls w = Some w' ∧ wf w' ∧
    ∀ m, info_of m w' = apply_calls import_module m calls (info_of m w).
Proof.
  revert w. induction calls as [|[d func] calls IH]; intros w Hwf; simpl.
  - by exists w.
  - destruct (call_info_of d func w Hwf) as (out & w1 & -> & Hwf1 & H1).
    destruct (IH w1 Hwf1) as (w' & -> & Hwf' & H').
    exists w'. split; [done|]. split; [done|]. intros m.
    unfold apply_calls in *. simpl. by rewrite H', H1.
Qed.

Lemma apply_calls_cons m d func calls info :
  apply_calls import_module m ((d, func) :: calls) info =
  apply_calls import_module m calls (apply_call import_module m (d, func) info).
Proof. reflexivity. Qed.

(** Each field of the result, read off the sequence. *)
Ltac field_of_calls :=
  let i := fresh "i" in
  match goal with |- context [apply_calls _ _ ?calls ?info] =>
    revert info; induction calls as [|[[] ?] ? IH]; intros i;
    [by rewrite ?app_nil_r; destruct (init_hook i)|..];
    rewrite apply_calls_cons, IH; unfold apply_call; simpl;
    destruct (resolves_to import_module _ _); simpl; try done;
    unfold refuses; destruct (init_hook i); simpl; try done;
    by rewrite <- app_assoc
  end.

Lemma apply_calls_config_changed m calls info :
  config_changed_hooks (apply_calls import_module m calls info) =
  config_changed_hooks info ++ declared_config_changed import_module m calls.
Proof. field_of_calls. Qed.

Lemma apply_calls_before_load m calls info :
  before_load_hooks (apply_calls import_module m calls info) =
  before_load_hooks info ++ declared import_module EvBeforeLoad m calls.
Proof. field_of_calls. Qed.

Lemma apply_calls_load_started m calls info :
  load_started_hooks (apply_calls import_module m calls info) =
  load_started_hooks info ++ declared import_module EvLoadStarted m calls.
Proof. field_of_calls. Qed.

Lemma apply_calls_load_finished m calls info :
  load_finished_hooks (apply_calls import_module m calls info) =
  load_finished_hooks info ++ declared import_module EvLoadFinished m calls.
Proof. field_of_calls. Qed.

Lemma apply_calls_init m calls info :
  init_hook (apply_calls import_module m calls info) =
  match init_hook info with
  | Some first => Some first
  | None => head (declared import_module EvInit m calls)
  end.
Proof.
  revert info. induction calls as [|[d func] calls IH]; intros info.
  - simpl. by destruct (init_hook info).
  - rewrite apply_calls_cons, IH. unfold apply_call. simpl.
    destruct (resolves_to import_module m func); simpl;
      [|by rewrite andb_false_r].
    rewrite andb_true_r. unfold refuses.
    destruct d; simpl; destruct (init_hook info) eqn:Hi; simpl;
      rewrite ?Hi; done.
Qed.

Lemma apply_calls_calls_of m calls info :
  apply_calls import_module m (calls_of import_module m calls) info =
  apply_calls import_module m calls info.
Proof.
  revert info. induction calls as [|[d func] calls IH]; intros info; [done|].
  unfold calls_of in *. rewrite filter_cons. simpl.
  unfold apply_call. simpl.
  destruct (resolves_to import_module m func) eqn:Hr; case_decide as Hd.
  - rewrite apply_calls_cons, IH. unfold apply_call. simpl. by rewrite Hr.
  - exfalso. by apply Hd.
  - destruct Hd.
  - apply IH.
Qed.

Lemma effect_comm d1 f1 d2 f2 info :
  event_of d1 ≠ event_of d2 →
  effect d1 f1 (effect d2 f2 info) = effect d2 f2 (effect d1 f1 info).
Proof. by destruct d1, d2. Qed.

Lemma refuses_effect d1 d2 f2 info :
  event_of d1 ≠ event_of d2 →
  refuses d1 (effect d2 f2 info) = refuses d1 info.
Proof. by destruct d1, d2. Qed.

Lemma apply_call_comm m d1 f1 d2 f2 info :
  event_of d1 ≠ event_of d2 ∨
    import_module (__module__ f1) ≠ import_module (__module__ f2) →
  apply_call import_module m (d1, f1) (apply_call import_module m (d2, f2) info) =
  apply_call import_module m (d2, f2) (apply_call import_module m (d1, f1) info).
Proof.
  intros Hdiff. unfold apply_call, resolves_to. simpl.
  destruct (bool_decide (import_module (__module__ f1) = inr m)) eqn:H1;
    destruct (bool_decide (import_module (__module__ f2) = inr m)) eqn:H2;
    try done.
  apply bool_decide_eq_true in H1, H2.
  destruct Hdiff as [Hev|Hmod]; [|congruence].
  assert (Hev' : event_of d2 ≠ event_of d1) by congruence.
  destruct (refuses d1 info) eqn:R1, (refuses d2 info) eqn:R2;
    rewrite ?R1, ?R2, ?refuses_effect, ?R1, ?R2 by done; try done.
  by apply effect_comm.
Qed.

(** X1. After any sequence of decorator calls, mixed and with failing
    ones among them, a module's [config_changed_hooks] are the ones it
    had, followed by the [(filter, func)] of every [config_changed] call
    whose callback belongs to the module, in call order. *)
Theorem config_changed_hooks_of_calls m calls w :
  wf w →
  ∃ w',
    call_all import_module calls w = Some w' ∧
    config_changed_hooks (info_of m w') =
      config_changed_hooks (info_of m w) ++
      declared_config_changed import_module m calls.
Proof.
  intros Hwf. destruct (call_all_info_of calls w Hwf) as (w' & Hrun & _ & Hi).
  exists w'. by rewrite Hi, apply_calls_config_changed.
Qed.

(** X2. The same for [before_load_hooks]: the old ones, then the
    callbacks of the module's [before_load] calls, in call order. *)
Theorem before_load_hooks_of_calls m calls w :
  wf w →
  ∃ w',
    call_all import_module calls w = Some w' ∧
    before_load_hooks (info_of m w') =
      before_load_hooks (info_of m w) ++
      declared import_module EvBeforeLoad m calls.
Proof.
  intros Hwf. destruct (call_all_info_of calls w Hwf) as (w' & Hrun & _ & Hi).
  exists w'. by rewrite Hi, apply_calls_before_load.
Qed.

(** X3. The same for [load_started_hooks]. *)
Theorem load_started_hooks_of_calls m calls w :
  wf w →
  ∃ w',
    call_all import_module calls w = Some w' ∧
    load_started_hooks (info_of m w') =
      load_started_hooks (info_of m w) ++
      declared import_module EvLoadStarted m calls.
Proof.
  intros Hwf. destruct (call_all_info_of calls w Hwf) as (w' & Hrun & _ & Hi).
  exists w'. by rewrite Hi, apply_calls_load_started.
Qed.

(** X4. The same for [load_finished_hooks]. *)
Theorem load_finished_hooks_of_calls m calls w :
  wf w →
  ∃ w',
    call_all import_module calls w = Some w' ∧
    load_finished_hooks (info_of m w') =
      load_finished_hooks (info_of m w) ++
      declared import_module EvLoadFinished m calls.
Proof.
  intros Hwf. destruct (call_all_info_of calls w Hwf) as (w' & Hrun & _ & Hi).
  exists w'. by rewrite Hi, apply_calls_load_finished.
Qed.

(** X5. The first [init] wins: after any sequence of decorator calls a
    module's init-hook is the one it had, if it had one, and otherwise the
    callback of the first [init] call that belongs to the module; no later
    call replaces or clears it. *)
Theorem init_hook_first_wins m calls w :
  wf w →
  ∃ w',
    call_all import_module calls w = Some w' ∧
    init_hook (info_of m w') =
      match init_hook (info_of m w) with
      | Some first => Some first
      | None => head (declared import_module EvInit m calls)
      end.
Proof.
  intros Hwf. destruct (call_all_info_of calls w Hwf) as (w' & Hrun & _ & Hi).
  exists w'. by rewrite Hi, apply_calls_init.
Qed.

(** X6. What a module's [ModuleInfo] becomes depends on the calls for
    its own callbacks only: dropping from a sequence every call whose
    callback belongs to another module or to none gives the module the
    same [ModuleInfo]. *)
Theorem calls_of_other_modules_irrelevant m calls w :
  wf w →
  ∃ w1 w2,
    call_all import_module calls w = Some w1 ∧
    call_all import_module (calls_of import_module m calls) w = Some w2 ∧
    info_of m w1 = info_of m w2.
Proof.
  intros Hwf.
  destruct (call_all_info_of calls w Hwf) as (w1 & Hrun1 & _ & H1).
  destruct (call_all_info_of (calls_of import_module m calls) w Hwf)
    as (w2 & Hrun2 & _ & H2).
  exists w1, w2. by rewrite H1, H2, apply_calls_calls_of.
Qed.

(** X7. Two decorator calls for different events, or for callbacks of
    different modules, can be made in either order: every module ends
    with the same [ModuleInfo]. *)
Theorem calls_commute d1 f1 d2 f2 w :
  wf w →
  event_of d1 ≠ event_of d2 ∨
    import_module (__module__ f1) ≠ import_module (__module__ f2) →
  ∃ w12 w21,
    call_all import_module [(d1, f1); (d2, f2)] w = Some w12 ∧
    call_all import_module [(d2, f2); (d1, f1)] w = Some w21 ∧
    ∀ m, info_of m w12 = info_of m w21.
Proof.
  intros Hwf Hdiff.
  destruct (call_all_info_of [(d1, f1); (d2, f2)] w Hwf) as (w12 & Hr12 & _ & H12).
  destruct (call_all_info_of [(d2, f2); (d1, f1)] w Hwf) as (w21 & Hr21 & _ & H21).
  exists w12, w21. split; [done|]. split; [done|]. intros m.
  rewrite H12, H21. unfold apply_calls. simpl.
  symmetry. by apply apply_call_comm.
Qed.

(** X8. [init] returns exactly when the module has no init-hook: then it
    returns [func] and the module's [ModuleInfo] is the old one with
    [init_hook] set to [func]; and whenever it returns, the module had no
    init-hook. *)
Theorem init_returns_iff func w m :
  wf w → import_module (__module__ func) = inr m →
  (init_hook (info_of m w) = None →
     ∃ w', init__call__ import_module func w = Some (Returned func, w') ∧
           module_info m w' = Some (set_init_hook func (info_of m w))) ∧
  (∀ r w', init__call__ import_module func w = Some (Returned r, w') →
           init_hook (info_of m w) = None).
Proof.
  intros Hwf Hm.
  destruct (call_resolved import_module init func w m Hwf Hm)
    as (w' & Hc & _ & Hi & _).
  simpl in Hc. unfold refuses in Hc, Hi. split.
  - intros Hnone. rewrite Hnone in Hc, Hi. eauto.
  - intros r w'' Hret. rewrite Hret in Hc.
    by destruct (init_hook (info_of m w)).
Qed.

(** X9. The only exceptions that leave a decorator call: the one the
    import of [func.__module__] raises, and the [ValueError] of [init] for
    a module that has an init-hook.  No other decorator raises for a
    callback whose module resolves. *)
Theorem call_raises_only d func w e w' :
  wf w → call import_module d func w = Some (Raised e, w') →
  import_module (__module__ func) = inl e ∨
  (d = init ∧ e = ValueError "init hook is already registered!" ∧
   ∃ m first, import_module (__module__ func) = inr m ∧
              init_hook (info_of m w) = Some first).
Proof.
  intros Hwf Hcall.
  destruct (import_module (__module__ func)) as [e0|m] eqn:Hm.
  - rewrite (call_unresolved _ _ _ _ _ Hm) in Hcall. left. congruence.
  - right. destruct (call_resolved import_module d func w m Hwf Hm)
      as (w'' & Hc & _).
    rewrite Hcall in Hc. unfold refuses in Hc.
    destruct d; try done.
    destruct (init_hook (info_of m w)) as [first|] eqn:Hfirst; [|done].
    injection Hc as -> _. eauto 6.
Qed.

(** X10. [config_changed], [before_load], [load_started] and
    [load_finished] refuse nothing: for a callback whose module resolves
    the call returns [func] and makes its mutation, whatever is registered
    already, the same callback included. *)
Theorem append_decorators_accept d func w m :
  wf w → import_module (__module__ func) = inr m →
  event_of d ≠ EvInit →
  ∃ w',
    call import_module d func w = Some (Returned func, w') ∧
    module_info m w' = Some (effect d func (info_of m w)).
Proof.
  intros Hwf Hm Hev.
  destruct (call_resolved import_module d func w m Hwf Hm)
    as (w' & Hc & _ & Hi & _).
  assert (Href : refuses d (info_of m w) = false) by by destruct d.
  rewrite Href in Hc, Hi. eauto.
Qed.

End SequenceProofs.

(** ** The sequence properties, run on the small installation *)

Lemma config_changed_hooks_of_calls_witness :
  wf demo_world ∧
  ∃ w',
    call_all demo_import demo_calls demo_world = Some w' ∧
    config_changed_hooks (info_of "ext.adblock" w') =
      [(Some "bindings", on_js_change); (None, on_any_change)].
Proof.
  split; [wf_by_computation|].
  destruct (config_changed_hooks_of_calls demo_import "ext.adblock" demo_calls
              demo_world) as (w' & Hrun & Hhooks); [wf_by_computation|].
  exists w'. split; [exact Hrun|exact Hhooks].
Defined.

Lemma before_load_hooks_of_calls_witness :
  wf demo_world ∧
  ∃ w',
    call_all demo_import demo_calls demo_world = Some w' ∧
    before_load_hooks (info_of "ext.adblock" w') = [on_init; on_init].
Proof.
  split; [wf_by_computation|].
  destruct (before_load_hooks_of_calls demo_import "ext.adblock" demo_calls
              demo_world) as (w' & Hrun & Hhooks); [wf_by_computation|].
  exists w'. split; [exact Hrun|exact Hhooks].
Defined.

Lemma load_started_hooks_of_calls_witness :
  wf demo_world ∧
  ∃ w',
    call_all demo_import demo_calls demo_world = Some w' ∧
    load_started_hooks (info_of "ext.adblock" w') = [on_any_change].
Proof.
  split; [wf_by_computation|].
  destruct (load_started_hooks_of_calls demo_import "ext.adblock" demo_calls
              demo_world) as (w' & Hrun & Hhooks); [wf_by_computation|].
  exists w'. split; [exact Hrun|exact Hhooks].
Defined.

Lemma load_finished_hooks_of_calls_witness :
  wf demo_world ∧
  ∃ w',
    call_all demo_import demo_calls demo_world = Some w' ∧
    load_finished_hooks (info_of "ext.zoom" w') = [zoom_init].
Proof.
  split; [wf_by_computation|].
  destruct (load_finished_hooks_of_calls demo_import "ext.zoom" demo_calls
              demo_world) as (w' & Hrun & Hhooks); [wf_by_computation|].
  exists w'. split; [exact Hrun|exact Hhooks].
Defined.

Lemma init_hook_first_wins_witness :
  wf demo_world ∧
  (∃ w',
     call_all demo_import demo_calls demo_world = Some w' ∧
     init_hook (info_of "ext.adblock" w') = Some on_init) ∧
  (∃ w',
     call_all demo_import demo_calls demo_world = Some w' ∧
     init_hook (info_of "ext.zoom" w') = Some zoom_init).
Proof.
  split; [wf_by_computation|]. split.
  - destruct (init_hook_first_wins demo_import "ext.adblock" demo_calls
                demo_world) as (w' & Hrun & Hhook); [wf_by_computation|].
    exists w'. split; [exact Hrun|exact Hhook].
  - destruct (init_hook_first_wins demo_import "ext.zoom" demo_calls
                demo_world) as (w' & Hrun & Hhook); [wf_by_computation|].
    exists w'. split; [exact Hrun|exact Hhook].
Defined.

Lemma calls_of_other_modules_irrelevant_witness :
  wf demo_world ∧
  ∃ w1 w2,
    call_all demo_import demo_calls demo_world = Some w1 ∧
    call_all demo_import [(init, zoom_init); (load_finished, zoom_init)]
      demo_world = Some w2 ∧
    info_of "ext.zoom" w1 = info_of "ext.zoom" w2.
Proof.
  split; [wf_by_computation|].
  destruct (calls_of_other_modules_irrelevant demo_import "ext.zoom"
              demo_calls demo_world)
    as (w1 & w2 & Hrun1 & Hrun2 & Hsame); [wf_by_computation|].
  exists w1, w2. split; [exact Hrun1|]. split; [exact Hrun2|exact Hsame].
Defined.

Lemma calls_commute_witness :
  wf demo_world ∧
  event_of init ≠ event_of before_load ∧
  ∃ w12 w21,
    call_all demo_import [(init, on_init_again); (before_load, on_js_change)]
      demo_world = Some w12 ∧
    call_all demo_import [(before_load, on_js_change); (init, on_init_again)]
      demo_world = Some w21 ∧
    ∀ m, info_of m w12 = info_of m w21.
Proof.
  split; [wf_by_computation|]. split; [discriminate|].
  apply (calls_commute demo_import init on_init_again before_load on_js_change
           demo_world);
    [wf_by_computation|left; discriminate].
Defined.

Lemma init_returns_iff_witness :
  wf demo_world ∧
  demo_import (__module__ zoom_init) = inr "ext.zoom" ∧
  init_hook (info_of "ext.zoom" demo_world) = None ∧
  ∃ w',
    init__call__ demo_import zoom_init demo_world = Some (Returned zoom_init, w') ∧
    module_info "ext.zoom" w' = Some (set_init_hook zoom_init ModuleInfo_new).
Proof.
  split; [wf_by_computation|]. split; [reflexivity|]. split; [reflexivity|].
  destruct (init_returns_iff demo_import zoom_init demo_world "ext.zoom")
    as [Hreturns _]; [wf_by_computation|reflexivity|].
  destruct (Hreturns eq_refl) as (w' & Hcall & Hinfo).
  exists w'. split; [exact Hcall|exact Hinfo].
Defined.

Lemma call_raises_only_witness :
  wf demo_world ∧
  call demo_import init on_init_again demo_world =
    Some (Raised (ValueError "init hook is already registered!"), demo_world) ∧
  (demo_import (__module__ on_init_again) =
     inl (ValueError "init hook is already registered!") ∨
   (init = init ∧
    ValueError "init hook is already registered!" =
      ValueError "init hook is already registered!" ∧
    ∃ m first, demo_import (__module__ on_init_again) = inr m ∧
               init_hook (info_of m demo_world) = Some first)).
Proof.
  split; [wf_by_computation|]. split; [reflexivity|].
  apply (call_raises_only demo_import init on_init_again demo_world
           (ValueError "init hook is already registered!") demo_world);
    [wf_by_computation|reflexivity].
Defined.

Lemma append_decorators_accept_witness :
  wf demo_world ∧
  demo_import (__module__ on_init) = inr "ext.adblock" ∧
  event_of load_started ≠ EvInit ∧
  ∃ w',
    call demo_import load_started on_init demo_world = Some (Returned on_init, w') ∧
    module_info "ext.adblock" w' =
      Some (append_load_started on_init (set_init_hook on_init ModuleInfo_new)).
Proof.
  split; [wf_by_computation|]. split; [reflexivity|]. split; [discriminate|].
  destruct (append_decorators_accept demo_import load_started on_init
              demo_world "ext.adblock")
    as (w' & Hcall & Hinfo); [wf_by_computation|reflexivity|discriminate|].
  exists w'. split; [exact Hcall|exact Hinfo].
Defined.
